(** * Advisor MCP: the tool dispatcher of [src/index.ts]

    A shallow embedding of the [MyMCP] agent: the configuration check of
    [init], the six tool handlers it registers, the HTTP requests they build
    and the replies they shape, followed by the properties of the
    specification proved (or refuted) on that embedding.

    Conventions of the embedding.
    - A JavaScript string is a [string]; the library functions the handlers
      call ([trim], [toUpperCase], [slice], [encodeURIComponent],
      [URLSearchParams]) are embedded for ASCII text, which is what tickers,
      sectors, paths and status codes are made of.  A character above 127
      stands for one byte of the UTF-8 form of the text: the two encoders
      escape it, [trim] and [toUpperCase] leave it alone.  Strings with a
      lone surrogate, on which [encodeURIComponent] throws, have no UTF-8
      form and are outside the embedding.
    - An integer argument ([limit], a status code) is a [Z]; a number that
      need not be an integer ([risk], a number inside a JSON document) is a
      [Q].  The handlers do no arithmetic on either.
    - [await fetch(...)] is the one effect of a handler.  A handler is a
      program of the type [Prog]; [run] executes it against a backend and
      returns the requests it issued (one for each call of [fetch])
      together with its completion (a returned reply or a thrown
      exception).
    - The two earlier revisions of the file, which the specification counts
      as superseded, register a subset of these tools next to two demo
      tools that compute on numbers.  They are embedded after the agent, in
      [Module Revision]; a number they compute on is an IEEE 754 double, a
      [float]. *)

From Stdlib Require Import String Ascii List Bool Arith ZArith NArith QArith Lia.
From Stdlib Require Import DecimalString DecimalZ DecimalPos FinFun Floats.
Import ListNotations.
Close Scope Q_scope.
Open Scope list_scope.
Open Scope string_scope.

(** ** JavaScript strings *)

Module JS.

(** White space and line terminators stripped by [String.prototype.trim]:
    TAB, LF, VT, FF, CR and SP. *)
Definition is_white_space (c : ascii) : bool :=
  match N_of_ascii c with
  | 9 | 10 | 11 | 12 | 13 | 32 => true
  | _ => false
  end%N.

Fixpoint trimStart (s : string) : string :=
  match s with
  | String c r => if is_white_space c then trimStart r else s
  | EmptyString => EmptyString
  end.

(** Drops the longest suffix of [s] whose characters all satisfy [p]. *)
Fixpoint drop_suffix (p : ascii -> bool) (s : string) : string :=
  match s with
  | EmptyString => EmptyString
  | String c r =>
      match drop_suffix p r with
      | EmptyString => if p c then EmptyString else String c EmptyString
      | r' => String c r'
      end
  end.

Definition trimEnd (s : string) : string := drop_suffix is_white_space s.

(** [s.trim()] *)
Definition trim (s : string) : string := trimEnd (trimStart s).

Definition upper_char (c : ascii) : ascii :=
  let n := N_of_ascii c in
  if ((97 <=? n) && (n <=? 122))%N then ascii_of_N (n - 32) else c.

(** [s.toUpperCase()] *)
Fixpoint toUpperCase (s : string) : string :=
  match s with
  | EmptyString => EmptyString
  | String c r => String (upper_char c) (toUpperCase r)
  end.

(** [s.slice(b, e)] for [0 <= b <= e]. *)
Definition slice (b e : nat) (s : string) : string := substring b (e - b) s.

(** [Boolean(s)]: a string is truthy when it is not empty. *)
Definition truthy (s : string) : bool := negb (s =? "").

(** [s.replace(/\/+$/, "")]: the one match of the pattern is the run of
    slashes that ends the string. *)
Definition is_slash (c : ascii) : bool := (c =? "/")%char.
Definition strip_trailing_slashes (s : string) : string := drop_suffix is_slash s.

(** [String(n)] and [`${n}`] for an integer [n]. *)
Definition Number_toString (n : Z) : string := NilZero.string_of_int (Z.to_int n).

(** *** Percent-encoding *)

Definition is_alphanumeric (c : ascii) : bool :=
  let n := N_of_ascii c in
  ((48 <=? n) && (n <=? 57) || (65 <=? n) && (n <=? 90) || (97 <=? n) && (n <=? 122))%N.

Definition hex_digit (n : N) : ascii :=
  match n with
  | 0 => "0" | 1 => "1" | 2 => "2" | 3 => "3" | 4 => "4" | 5 => "5" | 6 => "6" | 7 => "7"
  | 8 => "8" | 9 => "9" | 10 => "A" | 11 => "B" | 12 => "C" | 13 => "D" | 14 => "E" | _ => "F"
  end%N%char.

(** The value of a hexadecimal digit. *)
Definition unhex (c : ascii) : N :=
  let n := N_of_ascii c in if (n <? 58)%N then (n - 48)%N else (n - 55)%N.

(** [%XX], upper-case hexadecimal. *)
Definition percent_escape (c : ascii) : string :=
  let n := N_of_ascii c in
  String "%" (String (hex_digit (n / 16)) (String (hex_digit (n mod 16)) EmptyString)).

Definition one_of (set : string) (c : ascii) : bool :=
  existsb (Ascii.eqb c) (list_ascii_of_string set).

(** Characters [encodeURIComponent] leaves as they are. *)
Definition uri_unreserved (c : ascii) : bool :=
  is_alphanumeric c || one_of "-_.!~*'()" c.

Definition encodeURIComponent_char (c : ascii) : string :=
  if uri_unreserved c then String c EmptyString else percent_escape c.

Fixpoint encodeURIComponent (s : string) : string :=
  match s with
  | EmptyString => EmptyString
  | String c r => encodeURIComponent_char c ++ encodeURIComponent r
  end.

(** The [application/x-www-form-urlencoded] serializer behind
    [URLSearchParams.prototype.toString]: a space becomes [+], letters,
    digits and [*-._] stay, every other byte is escaped. *)
Definition form_urlencode_char (c : ascii) : string :=
  if (c =? " ")%char then "+"
  else if is_alphanumeric c || one_of "*-._" c then String c EmptyString
  else percent_escape c.

Fixpoint form_urlencode (s : string) : string :=
  match s with
  | EmptyString => EmptyString
  | String c r => form_urlencode_char c ++ form_urlencode r
  end.

(** [parts.join(sep)] *)
Fixpoint join (sep : string) (parts : list string) : string :=
  match parts with
  | [] => ""
  | [p] => p
  | p :: rest => p ++ sep ++ join sep rest
  end.

(** *** [URLSearchParams] *)

Definition URLSearchParams := list (string * string).

(** [qs.set(name, value)]: the first pair named [name] takes the value and
    the other pairs of that name go; without one the pair is appended. *)
Fixpoint URLSearchParams_set (qs : URLSearchParams) (name value : string) : URLSearchParams :=
  match qs with
  | [] => [(name, value)]
  | (k, v) :: rest =>
      if k =? name
      then (k, value) :: filter (fun kv => negb (fst kv =? name)) rest
      else (k, v) :: URLSearchParams_set rest name value
  end.

Definition URLSearchParams_toString (qs : URLSearchParams) : string :=
  join "&" (map (fun kv => form_urlencode (fst kv) ++ "=" ++ form_urlencode (snd kv)) qs).

(** *** [Set] of strings

    A [Set] iterates in insertion order; [add] of a member changes
    nothing. *)
Definition StringSet := list string.

Definition Set_has (s : StringSet) (x : string) : bool := existsb (String.eqb x) s.

Definition Set_add (s : StringSet) (x : string) : StringSet :=
  if Set_has s x then s else (s ++ [x])%list.

(** [new Set(values)] *)
Definition new_Set (values : list string) : StringSet := fold_left Set_add values [].

(** [Array.from(set)] *)
Definition Array_from (s : StringSet) : list string := s.

End JS.

(** ** JSON documents and JavaScript values *)

#[local] Set Warnings "-register-all".

Inductive json : Type :=
| JNull
| JBool (b : bool)
| JNum (n : Q)
| JStr (s : string)
| JArr (items : list json)
| JObj (members : list (string * json)).

(** What an expression of a handler can evaluate to: [undefined], or a value
    that a JSON document can hold. *)
Inductive value : Type :=
| Undefined
| Val (j : json).

(** [JSON.stringify(v, null, space)] of a value [v] that is not [undefined]
    is a service of the JavaScript runtime, with [space = 0] for the
    one-argument call.  The handlers only pass its result on. *)
Class Runtime := { JSON_stringify : json -> nat -> string }.

Module Value.

(** The member named [key] of a parsed object (the names of its members
    are distinct). *)
Fixpoint lookup (key : string) (members : list (string * json)) : value :=
  match members with
  | [] => Undefined
  | (k, v) :: rest => if k =? key then Val v else lookup key rest
  end.

(** [v.key] where [v] is neither [null] nor [undefined].  Only objects
    have the properties read by the handlers ([items], [item],
    [rationale]). *)
Definition property (v : json) (key : string) : value :=
  match v with
  | JObj members => lookup key members
  | _ => Undefined
  end.

(** [v?.key] *)
Definition optional_property (v : json) (key : string) : value :=
  match v with
  | JNull => Undefined
  | _ => property v key
  end.

(** [v ?? d]: [d] replaces [null] and [undefined], and nothing else. *)
Definition nullish_coalesce (v : value) (d : value) : value :=
  match v with
  | Undefined | Val JNull => d
  | _ => v
  end.

(** [Array.isArray(v)] *)
Definition Array_isArray (v : value) : bool :=
  match v with
  | Val (JArr _) => true
  | _ => false
  end.

(** [JSON.stringify(v, null, space)]: [undefined] for [undefined], a
    string for every other value. *)
Definition stringify {rt : Runtime} (v : value) (space : nat) : value :=
  match v with
  | Undefined => Undefined
  | Val j => Val (JStr (JSON_stringify j space))
  end.

Definition is_string (v : value) : bool :=
  match v with
  | Val (JStr _) => true
  | _ => false
  end.

End Value.

(** ** Requests, responses and replies *)

(** The [cf] member of the options of [fetch]. *)
Record CfProperties := { cacheTtl : Z; cacheEverything : bool }.

(** The second argument of [fetch]. *)
Record RequestInit := {
  method : option string;
  cf : option CfProperties;
  headers : list (string * string);
  body : option string
}.

Record BackendRequest := { url : string; options : RequestInit }.

(** The method of a request is GET unless its options name another. *)
Definition request_method (rq : BackendRequest) : string :=
  match method (options rq) with
  | Some m => m
  | None => "GET"
  end.

Fixpoint header (name : string) (hs : list (string * string)) : option string :=
  match hs with
  | [] => None
  | (k, v) :: rest => if k =? name then Some v else header name rest
  end.

(** What a handler reads of a [Response]: [res.status], and what
    [res.text()] and [res.json()] resolve to ([None] when the promise
    rejects: the body cannot be read, or is not a JSON document). *)
Record BackendResponse := {
  status : Z;
  body_text : option string;
  body_json : option json
}.

(** [res.ok] *)
Definition ok (res : BackendResponse) : bool := (200 <=? status res)%Z && (status res <=? 299)%Z.

Record ContentBlock := { type : string; text : value }.
Record Reply := { content : list ContentBlock }.

(** ** Handler programs *)

Inductive Exception := TypeError | SyntaxError.

(** An [async] function body: it returns, throws, or awaits a [fetch] and
    goes on with the response. *)
Inductive Prog (A : Type) : Type :=
| Return (a : A)
| Throw (e : Exception)
| Fetch (rq : BackendRequest) (k : BackendResponse -> Prog A).
Arguments Return {A} a.
Arguments Throw {A} e.
Arguments Fetch {A} rq k.

Fixpoint bind {A B : Type} (p : Prog A) (f : A -> Prog B) : Prog B :=
  match p with
  | Return a => f a
  | Throw e => Throw e
  | Fetch rq k => Fetch rq (fun res => bind (k res) f)
  end.

Declare Scope prog_scope.
Delimit Scope prog_scope with prog.
Notation "x <- p ;; q" := (bind p (fun x => q))
  (at level 61, p at next level, right associativity) : prog_scope.
Open Scope prog_scope.

(** [fetch(url, init)] *)
Definition fetch (url : string) (i : RequestInit) : Prog BackendResponse :=
  Fetch {| url := url; options := i |} (fun res => Return res).

(** [res.json()] *)
Definition json_of (res : BackendResponse) : Prog json :=
  match body_json res with
  | Some data => Return data
  | None => Throw SyntaxError
  end.

(** [res.text().catch(() => "")] *)
Definition text_or_empty (res : BackendResponse) : string :=
  match body_text res with
  | Some s => s
  | None => ""
  end.

(** The backend, as [fetch] sees it: a response, or no response at all (the
    promise of [fetch] rejects with a [TypeError]). *)
Inductive FetchResult := Responded (res : BackendResponse) | Unreachable.
Definition Backend := BackendRequest -> FetchResult.

Inductive Completion (A : Type) : Type :=
| Returned (a : A)
| Thrown (e : Exception).
Arguments Returned {A} a.
Arguments Thrown {A} e.

(** Runs a program: the requests issued, oldest first, and how it ended. *)
Fixpoint run {A : Type} (backend : Backend) (p : Prog A) : list BackendRequest * Completion A :=
  match p with
  | Return a => ([], Returned a)
  | Throw e => ([], Thrown e)
  | Fetch rq k =>
      match backend rq with
      | Unreachable => ([rq], Thrown TypeError)
      | Responded res => let (rqs, c) := run backend (k res) in (rq :: rqs, c)
      end
  end.

Definition requests {A : Type} (backend : Backend) (p : Prog A) : list BackendRequest :=
  fst (run backend p).

Definition completion {A : Type} (backend : Backend) (p : Prog A) : Completion A :=
  snd (run backend p).

(** ** The agent *)

(** The Wrangler bindings; [None] is a binding that is not set. *)
Record Env := { API_BASE : option string }.

(** [(this.env.API_BASE || "").replace(/\/+$/, "")] *)
Definition normalized_API_BASE (env : Env) : string :=
  JS.strip_trailing_slashes
    match API_BASE env with
    | Some s => s
    | None => ""
    end.

Definition text_block (t : value) : Reply := {| content := [{| type := "text"; text := t |}] |}.
Definition text_reply (s : string) : Reply := text_block (Val (JStr s)).

(** [{ cf: { cacheTtl: 0, cacheEverything: false },
       headers: { "cache-control": "no-store" } }] *)
Definition uncached : RequestInit :=
  {| method := None;
     cf := Some {| cacheTtl := 0; cacheEverything := false |};
     headers := [("cache-control", "no-store")];
     body := None |}.

(** A registered tool.  [Args] is the type of the arguments the transport
    hands to the handler, [parameterSchema] the constraints it has checked
    on them beforehand. *)
Record ToolDefinition := {
  name : string;
  description : string;
  Args : Type;
  parameterSchema : Args -> bool;
  handler : Args -> Prog Reply
}.

Module config_error.

(** The schema [{}] declares no parameter and the handler takes none:
    whatever members the caller sent are left unread. *)
Definition Args : Type := list (string * json).
Definition parameterSchema (_ : Args) : bool := true.

Definition message : string :=
  "Missing API_BASE env var. Set it in wrangler.jsonc under 'vars'.".

Definition handler (_ : Args) : Prog Reply := Return (text_reply message).

Definition tool : ToolDefinition :=
  Build_ToolDefinition "config_error"
      ""
      Args parameterSchema handler.

End config_error.

Module list_universe.

Record Args := { sector : option string; limit : Z }.

(** [limit: z.number().int().min(1).max(500)] *)
Definition parameterSchema (a : Args) : bool := (1 <=? limit a)%Z && (limit a <=? 500)%Z.

(** [if (sector && sector.trim()) qs.set("sector", sector.trim())] *)
Definition query (a : Args) : JS.URLSearchParams :=
  let qs := [("limit", JS.Number_toString (limit a))] in
  match sector a with
  | Some s =>
      if JS.truthy s && JS.truthy (JS.trim s)
      then JS.URLSearchParams_set qs "sector" (JS.trim s)
      else qs
  | None => qs
  end.

Section Handler.
Context {rt : Runtime} (env : Env).

Definition handler (a : Args) : Prog Reply :=
  let API_BASE := normalized_API_BASE env in
  let qs := query a in
  let url := API_BASE ++ "/universe?" ++ JS.URLSearchParams_toString qs in
  res <- fetch url uncached ;;
  if negb (ok res)
  then Return (text_reply ("Backend /universe failed: " ++ JS.Number_toString (status res)))
  else
    data <- json_of res ;;
    let items :=
      if Value.Array_isArray (Value.optional_property data "items")
      then Value.property data "items"
      else Val (JArr []) in
    Return (text_block (Value.stringify items 2)).

Definition tool : ToolDefinition :=
  Build_ToolDefinition "list_universe"
    "List tickers and sectors from the backend (Neo4j via FastAPI). Optional sector and limit."
    Args parameterSchema handler.
End Handler.

End list_universe.

Module explain_universe.

Record Args := { risk : Q; universe : list string }.

(** [risk: z.number().min(1).max(5)] *)
Definition parameterSchema (a : Args) : bool := Qle_bool 1 (risk a) && Qle_bool (risk a) 5.

(** The object [{ risk, universe }]. *)
Definition payload (a : Args) : json :=
  JObj [("risk", JNum (risk a)); ("universe", JArr (map JStr (universe a)))].

Section Handler.
(** [API_BASE] is the constant of [init], captured by the handler. *)
Context {rt : Runtime} (API_BASE : string).

Definition handler (a : Args) : Prog Reply :=
  res <- fetch (API_BASE ++ "/explain")
           {| method := Some "POST"; cf := None;
              headers := [("content-type", "application/json")];
              body := Some (JSON_stringify (payload a) 0) |} ;;
  if negb (ok res)
  then Return (text_reply ("Backend /explain failed: " ++ JS.Number_toString (status res)))
  else
    data <- json_of res ;;
    let text :=
      Value.nullish_coalesce (Value.optional_property data "rationale")
                             (Val (JStr "No rationale.")) in
    Return (text_block text).

Definition tool : ToolDefinition :=
  Build_ToolDefinition "explain_universe"
    "Get a short educational rationale via the LLM."
    Args parameterSchema handler.
End Handler.

End explain_universe.

Module get_asset_details.

Record Args := { ticker : string }.

(** [ticker: z.string().min(1)] *)
Definition parameterSchema (a : Args) : bool := (1 <=? String.length (ticker a))%nat.

Section Handler.
Context {rt : Runtime} (env : Env).

Definition handler (a : Args) : Prog Reply :=
  let API_BASE := normalized_API_BASE env in
  res <- fetch (API_BASE ++ "/asset/" ++ JS.encodeURIComponent (ticker a)) uncached ;;
  if negb (ok res)
  then Return (text_reply ("Backend /asset failed: " ++ JS.Number_toString (status res)))
  else
    data <- json_of res ;;
    (* [data.item]: reading a property of [null] throws. *)
    match data with
    | JNull => Throw TypeError
    | _ => Return (text_block (Value.stringify (Value.property data "item") 2))
    end.

Definition tool : ToolDefinition :=
  Build_ToolDefinition "get_asset_details"
    "Fetch one asset's basic details (ticker, name, sector)."
    Args parameterSchema handler.
End Handler.

End get_asset_details.

Module search_assets.

Record Args := { q : string; limit : Z }.

(** [q: z.string().min(1), limit: z.number().int().min(1).max(100)] *)
Definition parameterSchema (a : Args) : bool :=
  (1 <=? String.length (q a))%nat && ((1 <=? limit a)%Z && (limit a <=? 100)%Z).

Definition query (a : Args) : JS.URLSearchParams :=
  [("q", q a); ("limit", JS.Number_toString (limit a))].

Section Handler.
Context {rt : Runtime} (env : Env).

Definition handler (a : Args) : Prog Reply :=
  let API_BASE := normalized_API_BASE env in
  let qs := query a in
  res <- fetch (API_BASE ++ "/search?" ++ JS.URLSearchParams_toString qs) uncached ;;
  if negb (ok res)
  then Return (text_reply ("Backend /search failed: " ++ JS.Number_toString (status res)))
  else
    data <- json_of res ;;
    let items :=
      if Value.Array_isArray (Value.optional_property data "items")
      then Value.property data "items"
      else Val (JArr []) in
    Return (text_block (Value.stringify items 2)).

Definition tool : ToolDefinition :=
  Build_ToolDefinition "search_assets"
    "Find assets by ticker/name prefix (case-insensitive)."
    Args parameterSchema handler.
End Handler.

End search_assets.

Module ingest_from_finnhub.

Record Args := { tickers : list string }.

(** [tickers: z.array(z.string()).min(1).max(50)] *)
Definition parameterSchema (a : Args) : bool :=
  (1 <=? length (tickers a))%nat && (length (tickers a) <=? 50)%nat.

(** [Array.from(new Set(tickers.map(t => t.trim().toUpperCase())
                               .filter(Boolean))).slice(0, 50)] *)
Definition cleaned (a : Args) : list string :=
  firstn 50
    (JS.Array_from
       (JS.new_Set
          (filter JS.truthy (map (fun t => JS.toUpperCase (JS.trim t)) (tickers a))))).

(** [cleaned.map(t => `tickers=${encodeURIComponent(t)}`).join("&")] *)
Definition query_string (cleaned : list string) : string :=
  JS.join "&" (map (fun t => "tickers=" ++ JS.encodeURIComponent t) cleaned).

Section Handler.
Context {rt : Runtime} (env : Env).

Definition handler (a : Args) : Prog Reply :=
  let API_BASE := normalized_API_BASE env in
  let cleaned := cleaned a in
  match cleaned with
  | [] => Return (text_reply "No valid tickers provided.")
  | _ =>
    let qs := query_string cleaned in
    res <- fetch (API_BASE ++ "/ingest/finnhub?" ++ qs) uncached ;;
    if negb (ok res)
    then
      let body := text_or_empty res in
      Return (text_reply ("Backend /ingest/finnhub " ++ JS.Number_toString (status res)
                            ++ ": " ++ JS.slice 0 200 body))
    else
      data <- json_of res ;;
      Return (text_block (Value.stringify (Val data) 2))
  end.

Definition tool : ToolDefinition :=
  Build_ToolDefinition "ingest_from_finnhub"
    "Ingest company profiles from Finnhub for up to 50 tickers."
    Args parameterSchema handler.
End Handler.

End ingest_from_finnhub.

Module run_fundamentals.

Record Args := { ticker : string }.

(** [ticker: z.string().min(1)] *)
Definition parameterSchema (a : Args) : bool := (1 <=? String.length (ticker a))%nat.

Section Handler.
Context {rt : Runtime} (env : Env).

Definition handler (a : Args) : Prog Reply :=
  let API_BASE := normalized_API_BASE env in
  res <- fetch (API_BASE ++ "/analyze/fundamentals?ticker=" ++ JS.encodeURIComponent (ticker a))
           uncached ;;
  if negb (ok res)
  then
    let body := text_or_empty res in
    Return (text_reply ("Backend /analyze/fundamentals " ++ JS.Number_toString (status res)
                          ++ ": " ++ JS.slice 0 200 body))
  else
    data <- json_of res ;;
    Return (text_block (Value.stringify (Val data) 2)).

Definition tool : ToolDefinition :=
  Build_ToolDefinition "run_fundamentals"
    "Run fundamentals_v0 analyzer for a ticker (ret JSON report)."
    Args parameterSchema handler.
End Handler.

End run_fundamentals.

(** [MyMCP.init]: the tools registered for a session, in registration
    order.  Without a base address only [config_error] is registered. *)
Definition init {rt : Runtime} (env : Env) : list ToolDefinition :=
  let API_BASE := normalized_API_BASE env in
  if negb (JS.truthy API_BASE)
  then [config_error.tool]
  else [list_universe.tool env;
        explain_universe.tool API_BASE;
        get_asset_details.tool env;
        search_assets.tool env;
        ingest_from_finnhub.tool env;
        run_fundamentals.tool env].

(** ** The endpoints of the worker *)

Module Worker.

(** What the [fetch] entry point of the worker does with a request: it hands
    it to one of the two transports of [MyMCP], or answers it itself. *)
Inductive Outcome :=
| ServeSSE
| Serve
| Answer (status : Z) (body : string).

(** The [fetch] of the default export, on [new URL(request.url).pathname]. *)
Definition fetch (pathname : string) : Outcome :=
  if (pathname =? "/sse") || (pathname =? "/sse/message") then ServeSSE
  else if pathname =? "/mcp" then Serve
  else Answer 404 "Not found".

End Worker.

(** ** The earlier revisions of the agent *)

(** [String(x)] of a number [x] is a service of the JavaScript runtime. *)
Class NumberRuntime := { String_of_number : float -> string }.

Module Revision.

(** *** The demo tools of both revisions *)

Module add.

Record Args := { a : float; b : float }.

(** [a: z.number(), b: z.number()]: [NaN] is not a number for the schema. *)
Definition parameterSchema (args : Args) : bool :=
  negb (PrimFloat.is_nan (a args)) && negb (PrimFloat.is_nan (b args)).

Section Handler.
Context {nr : NumberRuntime}.

Definition handler (args : Args) : Prog Reply :=
  Return (text_reply (String_of_number (a args + b args)%float)).

Definition tool : ToolDefinition :=
  Build_ToolDefinition "add" "" Args parameterSchema handler.
End Handler.

End add.

Module calculate.

(** [z.enum(["add", "subtract", "multiply", "divide"])] *)
Inductive Operation := add | subtract | multiply | divide.

Record Args := { operation : Operation; a : float; b : float }.

Definition parameterSchema (args : Args) : bool :=
  negb (PrimFloat.is_nan (a args)) && negb (PrimFloat.is_nan (b args)).

Section Handler.
Context {nr : NumberRuntime}.

(** The [switch]: every case assigns [result] and breaks, but the division
    by zero, which returns. *)
Definition handler (args : Args) : Prog Reply :=
  let a := a args in
  let b := b args in
  match operation args with
  | add => Return (text_reply (String_of_number (a + b)%float))
  | subtract => Return (text_reply (String_of_number (a - b)%float))
  | multiply => Return (text_reply (String_of_number (a * b)%float))
  | divide =>
      if PrimFloat.eqb b 0
      then Return (text_reply "Error: Cannot divide by zero")
      else Return (text_reply (String_of_number (a / b)%float))
  end.

Definition tool : ToolDefinition :=
  Build_ToolDefinition "calculate" "" Args parameterSchema handler.
End Handler.

End calculate.

(** *** [list_universe] of the first revision

    It takes no argument and calls [/advice?t=${Date.now()}]: [now] is what
    [Date.now()] returns when the handler runs. *)
Module list_advice.

Definition Args : Type := list (string * json).
Definition parameterSchema (_ : Args) : bool := true.

Section Handler.
Context {rt : Runtime} (API_BASE : string) (now : Z).

Definition handler (_ : Args) : Prog Reply :=
  res <- fetch (API_BASE ++ "/advice?t=" ++ JS.Number_toString now) uncached ;;
  if negb (ok res)
  then Return (text_reply ("Backend /advice failed: " ++ JS.Number_toString (status res)))
  else
    data <- json_of res ;;
    let items :=
      if Value.Array_isArray (Value.optional_property data "items")
      then Value.property data "items"
      else Val (JArr []) in
    Return (text_block (Value.stringify items 2)).

Definition tool : ToolDefinition :=
  Build_ToolDefinition "list_universe"
    "List tickers and sectors from the backend (Neo4j via FastAPI)."
    Args parameterSchema handler.
End Handler.

End list_advice.

Section Init.
Context {rt : Runtime} {nr : NumberRuntime}.

(** [init] of the first revision ([src/unnamed/part_001]), for an
    invocation at the time [now]. *)
Definition init_first (env : Env) (now : Z) : list ToolDefinition :=
  let API_BASE := normalized_API_BASE env in
  if negb (JS.truthy API_BASE)
  then [config_error.tool]
  else [add.tool;
        calculate.tool;
        list_advice.tool API_BASE now;
        explain_universe.tool API_BASE].

(** [init] of the second revision ([src/unnamed/part_000]): its three
    backend tools are those of the last one. *)
Definition init_second (env : Env) : list ToolDefinition :=
  let API_BASE := normalized_API_BASE env in
  if negb (JS.truthy API_BASE)
  then [config_error.tool]
  else [add.tool;
        calculate.tool;
        list_universe.tool env;
        explain_universe.tool API_BASE;
        get_asset_details.tool env].
End Init.

End Revision.

(** ** The wording of the specification

    Definitions that follow the sentences of the specification, to be
    compared with the code above. *)

Module Spec.





(** The path each tool calls, from the table of tools. *)
Definition backend_path (tool : string) : string :=
  if tool =? "list_universe" then "/universe"
  else if tool =? "explain_universe" then "/explain"
  else if tool =? "get_asset_details" then "/asset"
  else if tool =? "search_assets" then "/search"
  else if tool =? "ingest_from_finnhub" then "/ingest/finnhub"
  else if tool =? "run_fundamentals" then "/analyze/fundamentals"
  else "".

(** The two tools whose failure text carries an excerpt of the body. *)
Definition with_body_excerpt (tool : string) : bool :=
  (tool =? "ingest_from_finnhub") || (tool =? "run_fundamentals").


(** A base address made of white space only (or of nothing). *)
Definition blank (s : string) : bool := JS.trim s =? "".

End Spec.

(** ** Worked examples: a session and its backends *)

Module Sample.

(** The examples never look inside a serialized document: their runtime
    prints every document alike. *)
Definition runtime : Runtime := {| JSON_stringify := fun _ _ => "<json>" |}.

Definition env : Env := {| API_BASE := Some "https://api-advisor.onrender.com/" |}.

(** A backend that fails every request with [status] and a body that is
    not a JSON document. *)
Definition failing (status : Z) (body : string) : Backend :=
  fun _ => Responded {| status := status; body_text := Some body; body_json := None |}.

(** A backend that answers every request with 200 and a JSON document (of
    a successful response the handlers read the document only). *)
Definition succeeding (document : json) : Backend :=
  fun _ => Responded {| status := 200; body_text := None; body_json := Some document |}.

Definition not_found : Backend := failing 404 "Not Found".
Definition empty_object : Backend := succeeding (JObj []).

End Sample.

(** ** A number runtime for the worked examples *)

Module SampleNumbers.

(** The examples never look inside a printed number. *)
Definition runtime : NumberRuntime := {| String_of_number := fun _ => "<number>" |}.

End SampleNumbers.

(** ** Counting characters *)

Module Chars.

(** The number of occurrences of [c] in [s]. *)
Fixpoint count (c : ascii) (s : string) : nat :=
  match s with
  | EmptyString => 0
  | String d r => (if (d =? c)%char then 1 else 0) + count c r
  end.

(** Every character of [s] satisfies [p]. *)
Fixpoint all (p : ascii -> bool) (s : string) : bool :=
  match s with
  | EmptyString => true
  | String d r => p d && all p r
  end.

(** The characters that give a URL its structure. *)
Definition delimiter (c : ascii) : bool := JS.one_of "/?#&=+ " c.

(** What [encodeURIComponent] writes: the characters it keeps, and [%]. *)
Definition uri_safe (c : ascii) : bool := JS.uri_unreserved c || (c =? "%")%char.

(** What the form encoder writes: letters, digits, [*-._], [+] and [%]. *)
Definition form_safe (c : ascii) : bool := JS.is_alphanumeric c || JS.one_of "*-._+%" c.

(** [s] ends with the character [c]. *)
Definition ends_with (c : ascii) (s : string) : Prop := exists r, s = r ++ String c EmptyString.

(** [s] is made of [n] slashes. *)
Fixpoint slashes (n : nat) : string :=
  match n with
  | 0 => EmptyString
  | S m => String "/" (slashes m)
  end.

End Chars.

(** * Properties *)

(** ** Strings and lists *)













(** *** [encodeURIComponent] is injective *)

Lemma unhex_hex_digit (n : N) : (n < 16)%N -> JS.unhex (JS.hex_digit n) = n.
Proof.
  intros Hn. destruct n as [|p]; [reflexivity |].
  do 4 (destruct p as [p|p|]; try reflexivity); lia.
Qed.

Lemma percent_escape_inj (c1 c2 : ascii) :
  JS.percent_escape c1 = JS.percent_escape c2 -> c1 = c2.
Proof.
  unfold JS.percent_escape. intros E. injection E as Hhi Hlo.
  pose proof (N_ascii_bounded c1) as B1. pose proof (N_ascii_bounded c2) as B2.
  apply (f_equal JS.unhex) in Hhi, Hlo.
  rewrite !unhex_hex_digit in Hhi, Hlo
    by (try (apply N.mod_lt; lia); apply N.Div0.div_lt_upper_bound; lia).
  rewrite <- (ascii_N_embedding c1), <- (ascii_N_embedding c2). f_equal.
  rewrite (N.div_mod (N_of_ascii c1) 16), (N.div_mod (N_of_ascii c2) 16) by lia.
  now rewrite Hhi, Hlo.
Qed.

Lemma encodeURIComponent_char_inj (c1 c2 : ascii) (r1 r2 : string) :
  JS.encodeURIComponent_char c1 ++ r1 = JS.encodeURIComponent_char c2 ++ r2 ->
  c1 = c2 /\ r1 = r2.
Proof.
  unfold JS.encodeURIComponent_char.
  destruct (JS.uri_unreserved c1) eqn:U1, (JS.uri_unreserved c2) eqn:U2; simpl; intros E.
  - injection E as -> ->. now split.
  - injection E as -> _. discriminate.
  - injection E as <- _. discriminate.
  - injection E as Hhi Hlo Hr. split; [|exact Hr].
    apply percent_escape_inj. unfold JS.percent_escape. now rewrite Hhi, Hlo.
Qed.

Lemma encodeURIComponent_inj (s1 s2 : string) :
  JS.encodeURIComponent s1 = JS.encodeURIComponent s2 -> s1 = s2.
Proof.
  revert s2. induction s1 as [|c1 s1 IH]; intros [|c2 s2]; simpl; intros E.
  - reflexivity.
  - unfold JS.encodeURIComponent_char in E. destruct (JS.uri_unreserved c2); discriminate.
  - unfold JS.encodeURIComponent_char in E. destruct (JS.uri_unreserved c1); discriminate.
  - apply encodeURIComponent_char_inj in E as [-> E]. f_equal. now apply IH.
Qed.


(** ** Running a handler *)

Lemma run_fetch {A : Type} (backend : Backend) (u : string) (i : RequestInit)
    (k : BackendResponse -> Prog A) :
  run backend (res <- fetch u i ;; k res)
  = match backend {| url := u; options := i |} with
    | Unreachable => ([{| url := u; options := i |}], Thrown TypeError)
    | Responded res =>
        ({| url := u; options := i |} :: requests backend (k res), completion backend (k res))
    end.
Proof.
  unfold requests, completion. simpl.
  destruct (backend _) as [res|]; [|reflexivity]. now destruct (run backend (k res)).
Qed.

Lemma run_json_of {A : Type} (backend : Backend) (res : BackendResponse) (k : json -> Prog A) :
  run backend (data <- json_of res ;; k data)
  = match body_json res with
    | Some data => run backend (k data)
    | None => ([], Thrown SyntaxError)
    end.
Proof. unfold json_of. now destruct (body_json res). Qed.

(** The shape shared by the six backend tools: one [fetch], a diagnostic for
    a status that is not a success, and otherwise the JSON document of the
    response shaped without a further request. *)
Lemma run_call {A : Type} (backend : Backend) (u : string) (i : RequestInit)
    (failure : BackendResponse -> A) (shape : BackendResponse -> json -> Prog A) :
  (forall res data, requests backend (shape res data) = []) ->
  run backend (res <- fetch u i ;;
               if negb (ok res) then Return (failure res)
               else data <- json_of res ;; shape res data)
  = ([{| url := u; options := i |}],
     match backend {| url := u; options := i |} with
     | Unreachable => Thrown TypeError
     | Responded res =>
         if ok res
         then match body_json res with
              | Some data => completion backend (shape res data)
              | None => Thrown SyntaxError
              end
         else Returned (failure res)
     end).
Proof.
  intros Hshape. rewrite run_fetch. destruct (backend _) as [res|]; [|reflexivity].
  unfold requests, completion. destruct (ok res); simpl; [|reflexivity].
  rewrite run_json_of. destruct (body_json res) as [data|]; [|reflexivity].
  specialize (Hshape res data). unfold requests in Hshape.
  destruct (run backend (shape res data)) as [rqs c]. simpl in *. now subst.
Qed.

(** The tools of a session: [config_error] alone, or the six backend tools. *)
Lemma init_cases {rt : Runtime} (env : Env) (t : ToolDefinition) :
  In t (init env) ->
  (normalized_API_BASE env = "" /\ t = config_error.tool)
  \/ (normalized_API_BASE env <> ""
      /\ (t = list_universe.tool env
          \/ t = explain_universe.tool (normalized_API_BASE env)
          \/ t = get_asset_details.tool env
          \/ t = search_assets.tool env
          \/ t = ingest_from_finnhub.tool env
          \/ t = run_fundamentals.tool env)).
Proof.
  unfold init, JS.truthy. destruct (normalized_API_BASE env) as [|c s] eqn:E; simpl.
  - intros [<-|[]]. now left.
  - intros Ht. right. split; [discriminate |]. intuition auto.
Qed.

(** Splits a goal about a tool of [init env] into one goal per tool. *)
Ltac each_tool Ht :=
  apply init_cases in Ht;
  destruct Ht as [[? ->] | [? [-> | [-> | [-> | [-> | [-> | ->]]]]]]];
  unfold config_error.tool, list_universe.tool, explain_universe.tool, get_asset_details.tool,
    search_assets.tool, ingest_from_finnhub.tool, run_fundamentals.tool in *;
  cbn [Args handler name] in *.

(** Runs the handler of the goal: the request it issues and its completion. *)
Ltac run_handler :=
  unfold requests, completion,
    list_universe.handler, explain_universe.handler, get_asset_details.handler,
    search_assets.handler, run_fundamentals.handler, config_error.handler,
    explain_universe.payload in *;
  rewrite ?run_call in * by (intros ? []; reflexivity);
  cbn [fst snd run In] in *.

(** ** Failed backend calls *)



(** The two failures the specification lists: a 500 of [/search], and a
    404 of [/analyze/fundamentals] whose body has 250 characters, of which
    the text keeps 200. *)
Example search_500 :
  completion (Sample.failing 500 "Internal Server Error")
    (search_assets.handler (rt := Sample.runtime) Sample.env
       {| search_assets.q := "app"; search_assets.limit := 10 |})
  = Returned (text_reply "Backend /search failed: 500").
Proof. reflexivity. Qed.

Example fundamentals_404_long_body :
  completion (Sample.failing 404 (String.concat "" (repeat "0123456789" 25)))
    (run_fundamentals.handler (rt := Sample.runtime) Sample.env
       {| run_fundamentals.ticker := "AAPL" |})
  = Returned (text_reply ("Backend /analyze/fundamentals 404: "
                            ++ String.concat "" (repeat "0123456789" 20))).
Proof. reflexivity. Qed.

(** ** Degraded mode *)

Lemma drop_suffix_empty (p : ascii -> bool) (s : string) :
  JS.drop_suffix p s = "" <-> forall c, In c (list_ascii_of_string s) -> p c = true.
Proof.
  induction s as [|c s IH]; simpl.
  - split; [intros _ c [] | reflexivity].
  - destruct (JS.drop_suffix p s) as [|c' s'] eqn:E.
    + destruct (p c) eqn:Ep; split; try discriminate; try reflexivity.
      * intros _ d [<-|Hd]; [exact Ep | now apply IH].
      * intros Hall. rewrite (Hall c) in Ep by now left. discriminate.
    + split; [discriminate |]. intros Hall.
      assert (String c' s' = "") as F by (apply IH; auto). discriminate.
Qed.

(** The normalized base address is empty when the binding is not set, is
    empty, or is made of slashes only. *)
Lemma normalized_API_BASE_empty (env : Env) :
  normalized_API_BASE env = ""
  <-> match API_BASE env with
      | None => True
      | Some s => forall c, In c (list_ascii_of_string s) -> c = "/"%char
      end.
Proof.
  unfold normalized_API_BASE, JS.strip_trailing_slashes. rewrite drop_suffix_empty.
  destruct (API_BASE env) as [s|]; simpl; [|split; [trivial | intros _ c []]].
  unfold JS.is_slash. split; intros Hall c Hc; specialize (Hall c Hc);
    [now apply Ascii.eqb_eq | now apply Ascii.eqb_eq].
Qed.

(** C2, as the code has it.  A session whose base address is empty after
    normalization (not set, empty, or made of slashes only) registers
    [config_error] and nothing else; whatever the arguments, that tool
    returns the fixed diagnostic, and no invocation in the session issues a
    backend request.  White space is not stripped: see the counterexample
    below. *)
Theorem C2_degraded_mode {rt : Runtime} (env : Env) :
  normalized_API_BASE env = "" ->
  map name (init env) = ["config_error"]
  /\ forall t, In t (init env) ->
       forall (a : Args t) (backend : Backend),
         run backend (handler t a) = ([], Returned (text_reply config_error.message)).
Proof.
  intros Hempty. unfold init. rewrite Hempty. simpl. split; [reflexivity |].
  intros t [<-|[]] a backend. reflexivity.
Qed.

(** C2, on a run: a base address made of slashes. *)
Lemma C2_degraded_mode_witness :
  let env := {| API_BASE := Some "//" |} in
  normalized_API_BASE env = ""
  /\ map name (init (rt := Sample.runtime) env) = ["config_error"]
  /\ forall t, In t (init (rt := Sample.runtime) env) ->
       forall (a : Args t) (backend : Backend),
         run backend (handler t a) = ([], Returned (text_reply config_error.message)).
Proof.
  intros env. split; [reflexivity |].
  apply (C2_degraded_mode (rt := Sample.runtime) env). reflexivity.
Defined.

(** C2 as stated fails: a base address of two spaces is white space only,
    the normalization leaves it as it is, and the session registers the six
    backend tools instead of [config_error]. *)
Lemma C2_whitespace_base_counterexample :
  let env := {| API_BASE := Some "  " |} in
  Spec.blank "  " = true
  /\ normalized_API_BASE env = "  "
  /\ map name (init (rt := Sample.runtime) env)
     = ["list_universe"; "explain_universe"; "get_asset_details"; "search_assets";
        "ingest_from_finnhub"; "run_fundamentals"]
  /\ map name (init (rt := Sample.runtime) env) <> ["config_error"].
Proof. intros env. repeat split. discriminate. Qed.

(** ** [ingest_from_finnhub] *)






(** ** [list_universe] *)

Lemma list_universe_query (a : list_universe.Args) :
  list_universe.query a
  = ("limit", JS.Number_toString (list_universe.limit a))
    :: match list_universe.sector a with
       | Some s => if Spec.blank s then [] else [("sector", JS.trim s)]
       | None => []
       end.
Proof.
  unfold list_universe.query, Spec.blank, JS.truthy.
  destruct (list_universe.sector a) as [[|c s]|]; try reflexivity.
  change (String c s =? "") with false. simpl negb. simpl andb.
  now destruct (JS.trim (String c s) =? "").
Qed.


(** ** [explain_universe] *)

(** C6, as the code has it.  [explain_universe] issues one POST to
    [/explain] whose body is the serialized object of [risk] and [universe].
    On a success response that carries a JSON document the text of the reply
    is the [rationale] member of the document, and [No rationale.] when the
    document has no such member or has it as [null]; the document [{}] gives
    [No rationale.] *)
Theorem C6_explain_universe {rt : Runtime} (API_BASE : string) (a : explain_universe.Args)
    (backend : Backend) :
  let document :=
    JObj [("risk", JNum (explain_universe.risk a));
          ("universe", JArr (map JStr (explain_universe.universe a)))] in
  let rq := {| url := API_BASE ++ "/explain";
               options := {| method := Some "POST"; cf := None;
                           headers := [("content-type", "application/json")];
                           body := Some (JSON_stringify document 0) |} |} in
  requests backend (explain_universe.handler API_BASE a) = [rq]
  /\ request_method rq = "POST"
  /\ (forall res data,
        backend rq = Responded res -> ok res = true -> body_json res = Some data ->
        completion backend (explain_universe.handler API_BASE a)
        = Returned (text_block match Value.property data "rationale" with
                                | Undefined | Val JNull => Val (JStr "No rationale.")
                                | Val rationale => Val rationale
                                end))
  /\ (forall res,
        backend rq = Responded res -> ok res = true -> body_json res = Some (JObj []) ->
        completion backend (explain_universe.handler API_BASE a)
        = Returned (text_reply "No rationale.")).
Proof.
  intros document rq. subst document rq.
  repeat split; run_handler; try reflexivity.
  - intros res data -> -> ->. unfold completion. simpl. do 2 f_equal.
    destruct data as [| | | | |members]; try reflexivity.
    simpl. now destruct (Value.lookup "rationale" members) as [|[]].
  - intros res -> -> ->. reflexivity.
Qed.

(** C6, on a run: a backend that answers [{"rationale": "Diversify."}]. *)
Lemma C6_explain_universe_witness :
  let a := {| explain_universe.risk := 3; explain_universe.universe := ["AAPL"] |} in
  let data := JObj [("rationale", JStr "Diversify.")] in
  let res := {| status := 200; body_text := None; body_json := Some data |} in
  let rq := {| url := "https://api-advisor.onrender.com/explain";
               options := {| method := Some "POST"; cf := None;
                           headers := [("content-type", "application/json")];
                           body := Some "<json>" |} |} in
  (Sample.succeeding data rq = Responded res /\ ok res = true /\ body_json res = Some data)
  /\ completion (Sample.succeeding data)
       (explain_universe.handler (rt := Sample.runtime) "https://api-advisor.onrender.com" a)
     = Returned (text_reply "Diversify.").
Proof.
  intros a data res rq. split; [repeat split |].
  destruct (C6_explain_universe (rt := Sample.runtime) "https://api-advisor.onrender.com" a
              (Sample.succeeding data)) as (_ & _ & Hdocument & _).
  apply (Hdocument res data); reflexivity.
Defined.

(** C6 as stated fails: the document [{"rationale": null}] has the member,
    and the text of the reply is [No rationale.], not the member. *)
Lemma C6_null_rationale_counterexample :
  let a := {| explain_universe.risk := 3; explain_universe.universe := [] |} in
  let data := JObj [("rationale", JNull)] in
  Value.property data "rationale" = Val JNull
  /\ completion (Sample.succeeding data)
       (explain_universe.handler (rt := Sample.runtime) "https://api-advisor.onrender.com" a)
     = Returned (text_reply "No rationale.")
  /\ completion (Sample.succeeding data)
       (explain_universe.handler (rt := Sample.runtime) "https://api-advisor.onrender.com" a)
     <> Returned (text_block (Value.property data "rationale")).
Proof. intros a data. repeat split. discriminate. Qed.

(** ** The text of a reply *)

(** Whatever the backend does, a reply that a tool of a session returns is
    one block tagged [text]. *)
Lemma reply_is_one_text_block {rt : Runtime} (env : Env) (t : ToolDefinition) (a : Args t)
    (backend : Backend) (reply : Reply) :
  In t (init env) ->
  completion backend (handler t a) = Returned reply ->
  exists payload, reply = {| content := [{| type := "text"; text := payload |}] |}.
Proof.
  intros Ht Hreply.
  each_tool Ht;
    try (unfold ingest_from_finnhub.handler in *;
         destruct (ingest_from_finnhub.cleaned a) as [|t0 ts]);
    run_handler;
    repeat match type of Hreply with
           | context [backend ?rq] => destruct (backend rq) as [res|]
           | context [ok ?res] => destruct (ok res)
           | context [body_json ?res] => destruct (body_json res) as [[]|]
           end;
    try discriminate; injection Hreply as <-; eexists; reflexivity.
Qed.

(** C7 fails on the code.  [get_asset_details] against a backend that
    answers 200 with the document [{}] returns a block whose text is
    [undefined]: [JSON.stringify] of the missing [item] is not a string.
    [explain_universe] against a document whose [rationale] is the number 42
    returns the number as the text. *)
Theorem C7_text_not_a_string {rt : Runtime} (env : Env) (API_BASE : string) :
  (completion Sample.empty_object
     (get_asset_details.handler env {| get_asset_details.ticker := "AAPL" |})
   = Returned {| content := [{| type := "text"; text := Undefined |}] |}
   /\ Value.is_string Undefined = false)
  /\ (completion (Sample.succeeding (JObj [("rationale", JNum 42)]))
        (explain_universe.handler API_BASE
           {| explain_universe.risk := 3; explain_universe.universe := [] |})
      = Returned {| content := [{| type := "text"; text := Val (JNum 42) |}] |}
      /\ Value.is_string (Val (JNum 42)) = false).
Proof. repeat split. Qed.

(** ** Requests per invocation *)



(** ** Cache bypass *)

(** C9. Every GET request issued by a tool of a session carries the cache
    bypass directive and the [no-store] header; the requests of the five
    tools other than [explain_universe] are GET requests. *)
Theorem C9_get_requests_bypass_caches {rt : Runtime} (env : Env) (t : ToolDefinition)
    (a : Args t) (backend : Backend) (rq : BackendRequest) :
  In t (init env) ->
  In rq (requests backend (handler t a)) ->
  (request_method rq = "GET" ->
   cf (options rq) = Some {| cacheTtl := 0; cacheEverything := false |}
   /\ header "cache-control" (headers (options rq)) = Some "no-store")
  /\ (name t <> "explain_universe" -> request_method rq = "GET").
Proof.
  intros Ht Hrq.
  each_tool Ht;
    try (unfold ingest_from_finnhub.handler in *;
         destruct (ingest_from_finnhub.cleaned a) as [|t0 ts]);
    run_handler; try contradiction;
    destruct Hrq as [<-|[]]; split; solve [intros _; split; reflexivity
                                         | intros _; reflexivity
                                         | discriminate
                                         | intros Hn; now destruct Hn].
Qed.

(** C9, on a run: the request of [get_asset_details]. *)
Lemma C9_get_requests_bypass_caches_witness :
  let t := get_asset_details.tool (rt := Sample.runtime) Sample.env in
  let a : Args t := {| get_asset_details.ticker := "BRK B" |} in
  let rq := {| url := "https://api-advisor.onrender.com/asset/BRK%20B"; options := uncached |} in
  (In t (init (rt := Sample.runtime) Sample.env)
   /\ In rq (requests Sample.empty_object (handler t a)))
  /\ (request_method rq = "GET" ->
      cf (options rq) = Some {| cacheTtl := 0; cacheEverything := false |}
      /\ header "cache-control" (headers (options rq)) = Some "no-store")
  /\ (name t <> "explain_universe" -> request_method rq = "GET").
Proof.
  intros t a rq.
  assert (In t (init (rt := Sample.runtime) Sample.env)) as Ht by (simpl; tauto).
  assert (In rq (requests Sample.empty_object (handler t a))) as Hrq by (left; reflexivity).
  split; [now split |].
  exact (C9_get_requests_bypass_caches Sample.env t a Sample.empty_object rq Ht Hrq).
Defined.

(** ** Order of the tickers in the query string *)






(** * Further properties of the code *)

(** ** The base address *)

Lemma drop_suffix_split (p : ascii -> bool) (s : string) :
  exists t, s = JS.drop_suffix p s ++ t
            /\ forall c, In c (list_ascii_of_string t) -> p c = true.
Proof.
  induction s as [|c s (t & Hs & Ht)]; simpl.
  - exists "". split; [reflexivity | intros c []].
  - destruct (JS.drop_suffix p s) as [|c' s'] eqn:E.
    + destruct (p c) eqn:Ep.
      * exists (String c t). simpl in *. split; [now rewrite <- Hs |].
        intros d [<-|Hd]; auto.
      * exists t. simpl in *. split; [now rewrite <- Hs | exact Ht].
    + exists t. simpl in *. split; [now rewrite <- Hs | exact Ht].
Qed.

Lemma drop_suffix_last (p : ascii -> bool) (s r : string) (c : ascii) :
  JS.drop_suffix p s = r ++ String c "" -> p c = false.
Proof.
  revert r. induction s as [|d s IH]; intros r; simpl.
  - destruct r; discriminate.
  - destruct (JS.drop_suffix p s) as [|c' s'] eqn:E.
    + destruct (p d) eqn:Ep; [destruct r; discriminate |].
      destruct r as [|e [|f r]]; simpl; intros H; try discriminate.
      now injection H as <-.
    + destruct r as [|e r]; simpl; intros H; [discriminate |].
      injection H as _ H. now apply (IH r).
Qed.

Lemma drop_suffix_idempotent (p : ascii -> bool) (s : string) :
  JS.drop_suffix p (JS.drop_suffix p s) = JS.drop_suffix p s.
Proof.
  induction s as [|c s IH]; simpl; [reflexivity |].
  destruct (JS.drop_suffix p s) as [|c' s'] eqn:E.
  - destruct (p c) eqn:Ep; simpl; [reflexivity | now rewrite Ep].
  - simpl in *. now rewrite IH.
Qed.

(** X1. The normalization of the base address removes a run of slashes at
    its end and nothing else; what is left does not end with a slash, and
    normalizing it again changes nothing. *)
Theorem X1_normalized_API_BASE (env : Env) :
  let configured := match API_BASE env with Some s => s | None => "" end in
  (exists n, configured = normalized_API_BASE env ++ Chars.slashes n)
  /\ ~ Chars.ends_with "/" (normalized_API_BASE env)
  /\ normalized_API_BASE {| API_BASE := Some (normalized_API_BASE env) |}
     = normalized_API_BASE env.
Proof.
  intros configured. unfold normalized_API_BASE, JS.strip_trailing_slashes. fold configured.
  split; [|split].
  - destruct (drop_suffix_split JS.is_slash configured) as (t & Hs & Ht).
    exists (String.length t). rewrite Hs at 1. f_equal.
    clear Hs. induction t as [|c t IH]; [reflexivity |].
    assert (c = "/"%char) as -> by (apply Ascii.eqb_eq, Ht; now left).
    simpl. rewrite <- IH; [reflexivity |].
    intros d Hd. apply Ht. now right.
  - intros [r Hr]. apply drop_suffix_last in Hr. discriminate.
  - simpl. apply drop_suffix_idempotent.
Qed.

(** ** Requests and completions of the six backend tools *)

(** Opens a goal about a tool of [init env]: one goal per tool, and per case
    of the guard of [ingest_from_finnhub], with the handler run. *)
Ltac open_tool Ht a :=
  each_tool Ht;
  try (unfold ingest_from_finnhub.handler in *;
       destruct (ingest_from_finnhub.cleaned a) as [|?t ?ts]);
  run_handler.

(** X2. Whatever the backend answers, a request of a session goes to the
    normalized base address followed by the path of its tool.  The request
    of [explain_universe] is a POST with a JSON body; no other request is a
    POST or has a body. *)
Theorem X2_requests_go_to_the_backend {rt : Runtime} (env : Env) (t : ToolDefinition)
    (a : Args t) (backend : Backend) (rq : BackendRequest) :
  In t (init env) ->
  In rq (requests backend (handler t a)) ->
  (exists suffix, url rq = normalized_API_BASE env ++ Spec.backend_path (name t) ++ suffix)
  /\ (request_method rq = "POST" <-> name t = "explain_universe")
  /\ (body (options rq) <> None <-> name t = "explain_universe")
  /\ (name t = "explain_universe" ->
      header "content-type" (headers (options rq)) = Some "application/json").
Proof.
  intros Ht Hrq.
  open_tool Ht a; try contradiction; destruct Hrq as [<-|[]];
    (split; [eexists; reflexivity |]); simpl;
    repeat split; try discriminate; try reflexivity; try congruence; try tauto.
Qed.

(** X2, on a run. *)
Lemma X2_requests_go_to_the_backend_witness :
  let t := explain_universe.tool (rt := Sample.runtime) (normalized_API_BASE Sample.env) in
  let a : Args t := {| explain_universe.risk := 2; explain_universe.universe := ["AAPL"] |} in
  let rq := {| url := "https://api-advisor.onrender.com/explain";
               options := {| method := Some "POST"; cf := None;
                             headers := [("content-type", "application/json")];
                             body := Some "<json>" |} |} in
  (In t (init (rt := Sample.runtime) Sample.env)
   /\ In rq (requests Sample.not_found (handler t a)))
  /\ (exists suffix,
       url rq = normalized_API_BASE Sample.env ++ Spec.backend_path (name t) ++ suffix)
  /\ (request_method rq = "POST" <-> name t = "explain_universe")
  /\ (body (options rq) <> None <-> name t = "explain_universe")
  /\ (name t = "explain_universe" ->
      header "content-type" (headers (options rq)) = Some "application/json").
Proof.
  intros t a rq.
  assert (In t (init (rt := Sample.runtime) Sample.env)) as Ht by (simpl; tauto).
  assert (In rq (requests Sample.not_found (handler t a))) as Hrq by (left; reflexivity).
  split; [now split |].
  exact (X2_requests_go_to_the_backend Sample.env t a Sample.not_found rq Ht Hrq).
Defined.



(** X4. When the backend answers with a success status and a body that is
    not a JSON document, every backend tool throws a [SyntaxError]: the
    rejection of [res.json()] is not caught. *)
Theorem X4_success_without_document {rt : Runtime} (env : Env) (t : ToolDefinition)
    (a : Args t) (backend : Backend) (rq : BackendRequest) (res : BackendResponse) :
  In t (init env) ->
  In rq (requests backend (handler t a)) ->
  backend rq = Responded res ->
  ok res = true ->
  body_json res = None ->
  completion backend (handler t a) = Thrown SyntaxError.
Proof.
  intros Ht Hrq Hb Hok Hjson.
  open_tool Ht a; try contradiction; destruct Hrq as [<-|[]]; now rewrite Hb, Hok, Hjson.
Qed.

(** X4, on a run: a 200 whose body is a page of text. *)
Lemma X4_success_without_document_witness :
  let t := search_assets.tool (rt := Sample.runtime) Sample.env in
  let a : Args t := {| search_assets.q := "app"; search_assets.limit := 10 |} in
  let rq := {| url := "https://api-advisor.onrender.com/search?q=app&limit=10";
               options := uncached |} in
  let res := {| status := 200; body_text := Some "<html>"; body_json := None |} in
  (In t (init (rt := Sample.runtime) Sample.env)
   /\ In rq (requests (Sample.failing 200 "<html>") (handler t a))
   /\ Sample.failing 200 "<html>" rq = Responded res
   /\ ok res = true
   /\ body_json res = None)
  /\ completion (Sample.failing 200 "<html>") (handler t a) = Thrown SyntaxError.
Proof.
  intros t a rq res.
  assert (In t (init (rt := Sample.runtime) Sample.env)) as Ht by (simpl; tauto).
  assert (In rq (requests (Sample.failing 200 "<html>") (handler t a))) as Hrq
    by (left; reflexivity).
  split; [repeat split; assumption |].
  exact (X4_success_without_document Sample.env t a (Sample.failing 200 "<html>") rq res
           Ht Hrq eq_refl eq_refl eq_refl).
Defined.



(** ** The text of a reply, tool by tool *)

(** X6. The four tools other than [get_asset_details] and
    [explain_universe] never return a text that is not a string: whatever the
    arguments and the backend, a reply they return is one block whose text
    is a string. *)
Theorem X6_string_text {rt : Runtime} (env : Env) (t : ToolDefinition) (a : Args t)
    (backend : Backend) (reply : Reply) :
  In t (init env) ->
  name t <> "get_asset_details" ->
  name t <> "explain_universe" ->
  completion backend (handler t a) = Returned reply ->
  exists s, reply = {| content := [{| type := "text"; text := Val (JStr s) |}] |}.
Proof.
  intros Ht Hn1 Hn2 Hreply.
  open_tool Ht a; try (now destruct Hn1); try (now destruct Hn2);
    repeat match type of Hreply with
           | context [backend ?rq] => destruct (backend rq) as [res|]
           | context [ok ?res] => destruct (ok res)
           | context [body_json ?res] => destruct (body_json res) as [data|]
           end;
    try discriminate; unfold completion in Hreply; simpl in Hreply;
    try match type of Hreply with
        | context [Value.Array_isArray ?v] => destruct (Value.Array_isArray v) eqn:Harray
        end;
    try match type of Hreply with
        | context [Value.property ?d ?k] =>
            destruct d as [| | | | |members]; try discriminate; simpl in *;
            destruct (Value.lookup k members) as [|[]]; try discriminate
        end;
    injection Hreply as <-; eexists; reflexivity.
Qed.

(** X6, on a run: [list_universe] and a document without [items]. *)
Lemma X6_string_text_witness :
  let t := list_universe.tool (rt := Sample.runtime) Sample.env in
  let a : Args t := {| list_universe.sector := None; list_universe.limit := 5 |} in
  (In t (init (rt := Sample.runtime) Sample.env)
   /\ name t <> "get_asset_details"
   /\ name t <> "explain_universe"
   /\ completion Sample.empty_object (handler t a) = Returned (text_reply "<json>"))
  /\ exists s, text_reply "<json>" = {| content := [{| type := "text"; text := Val (JStr s) |}] |}.
Proof.
  intros t a.
  assert (In t (init (rt := Sample.runtime) Sample.env)) as Ht by (simpl; tauto).
  assert (name t <> "get_asset_details") as Hn1 by discriminate.
  assert (name t <> "explain_universe") as Hn2 by discriminate.
  split; [repeat split; assumption |].
  exact (X6_string_text Sample.env t a Sample.empty_object (text_reply "<json>")
           Ht Hn1 Hn2 eq_refl).
Defined.

(** X7. On a success response [get_asset_details] throws a [TypeError] for
    the document [null]; for every other document it returns a reply, whose
    text is a string exactly when the document is an object with an [item]
    member. *)
Theorem X7_get_asset_details_success {rt : Runtime} (env : Env) (a : get_asset_details.Args)
    (backend : Backend) (res : BackendResponse) (data : json) :
  backend {| url := normalized_API_BASE env ++ "/asset/"
                    ++ JS.encodeURIComponent (get_asset_details.ticker a);
             options := uncached |} = Responded res ->
  ok res = true ->
  body_json res = Some data ->
  (data = JNull -> completion backend (get_asset_details.handler env a) = Thrown TypeError)
  /\ (data <> JNull ->
      exists payload,
        completion backend (get_asset_details.handler env a) = Returned (text_block payload)
        /\ (Value.is_string payload = true
            <-> exists members item,
                  data = JObj members /\ Value.lookup "item" members = Val item)).
Proof.
  intros Hb Hok Hjson. run_handler. rewrite Hb, Hok, Hjson. split.
  - now intros ->.
  - intros Hnull. destruct data as [| | | | |members]; try (now destruct Hnull);
      unfold completion; simpl; eexists; (split; [reflexivity |]);
      try (split; [discriminate | intros (? & ? & ? & _); discriminate]).
    destruct (Value.lookup "item" members) as [|item] eqn:E; simpl.
    + split; [discriminate | intros (m & i & Hm & Hi)]. injection Hm as <-. congruence.
    + split; [intros _; now exists members, item | reflexivity].
Qed.

(** X7, on a run: an object with an [item]. *)
Lemma X7_get_asset_details_success_witness :
  let a := {| get_asset_details.ticker := "AAPL" |} in
  let data := JObj [("item", JObj [("ticker", JStr "AAPL")])] in
  let res := {| status := 200; body_text := None; body_json := Some data |} in
  (data = JNull ->
   completion (Sample.succeeding data)
     (get_asset_details.handler (rt := Sample.runtime) Sample.env a) = Thrown TypeError)
  /\ (data <> JNull ->
      exists payload,
        completion (Sample.succeeding data)
          (get_asset_details.handler (rt := Sample.runtime) Sample.env a)
        = Returned (text_block payload)
        /\ (Value.is_string payload = true
            <-> exists members item,
                  data = JObj members /\ Value.lookup "item" members = Val item)).
Proof.
  intros a data res.
  exact (X7_get_asset_details_success (rt := Sample.runtime) Sample.env a
           (Sample.succeeding data) res data eq_refl eq_refl eq_refl).
Defined.

(** X8. For [list_universe] and [search_assets], a success document whose
    [items] is missing or is not an array (and a document that is not an
    object at all) gives the same reply as a document with the empty
    array: the serialized empty array. *)
Theorem X8_items_fallback {rt : Runtime} (env : Env) (backend : Backend)
    (res : BackendResponse) (data : json) :
  ok res = true ->
  body_json res = Some data ->
  (forall l, Value.property data "items" <> Val (JArr l)) ->
  (forall a rq,
      In rq (requests backend (list_universe.handler env a)) -> backend rq = Responded res ->
      completion backend (list_universe.handler env a)
      = Returned (text_reply (JSON_stringify (JArr []) 2)))
  /\ (forall a rq,
        In rq (requests backend (search_assets.handler env a)) -> backend rq = Responded res ->
        completion backend (search_assets.handler env a)
        = Returned (text_reply (JSON_stringify (JArr []) 2))).
Proof.
  intros Hok Hjson Hitems.
  assert (Value.Array_isArray (Value.optional_property data "items") = false) as Harray.
  { destruct data as [| | | | |members]; try reflexivity. simpl in *.
    destruct (Value.lookup "items" members) as [|[]]; try reflexivity.
    now destruct (Hitems items). }
  split; intros a rq Hrq Hb; run_handler; destruct Hrq as [<-|[]];
    rewrite Hb, Hok, Hjson; unfold completion; simpl; now rewrite Harray.
Qed.

(** X8, on a run: the document is a string. *)
Lemma X8_items_fallback_witness :
  let data := JStr "maintenance" in
  let res := {| status := 200; body_text := None; body_json := Some data |} in
  let a := {| list_universe.sector := None; list_universe.limit := 5 |} in
  let rq := {| url := "https://api-advisor.onrender.com/universe?limit=5";
               options := uncached |} in
  (ok res = true /\ body_json res = Some data
   /\ forall l, Value.property data "items" <> Val (JArr l))
  /\ completion (Sample.succeeding data)
       (list_universe.handler (rt := Sample.runtime) Sample.env a)
     = Returned (text_reply (JSON_stringify (Runtime := Sample.runtime) (JArr []) 2)).
Proof.
  intros data res a rq.
  assert (forall l, Value.property data "items" <> Val (JArr l)) as Hitems by discriminate.
  split; [repeat split; assumption |].
  apply (proj1 (X8_items_fallback (rt := Sample.runtime) Sample.env (Sample.succeeding data)
                  res data eq_refl eq_refl Hitems) a rq); [left |]; reflexivity.
Defined.

(** ** The cleaned tickers *)















Lemma toUpperCase_empty (s : string) : JS.toUpperCase s = "" <-> s = "".
Proof. destruct s; simpl; split; congruence. Qed.






(** ** What the encoders keep out of a URL *)

Lemma count_append (c : ascii) (s1 s2 : string) :
  Chars.count c (s1 ++ s2) = Chars.count c s1 + Chars.count c s2.
Proof. induction s1 as [|d s1 IH]; simpl; [reflexivity | rewrite IH; lia]. Qed.

Lemma all_append (p : ascii -> bool) (s1 s2 : string) :
  Chars.all p (s1 ++ s2) = Chars.all p s1 && Chars.all p s2.
Proof.
  induction s1 as [|d s1 IH]; simpl; [reflexivity |]. now rewrite IH, andb_assoc.
Qed.

Lemma count_none (p : ascii -> bool) (c : ascii) (s : string) :
  Chars.all p s = true -> p c = false -> Chars.count c s = 0.
Proof.
  intros Hall Hc. induction s as [|d s IH]; simpl in *; [reflexivity |].
  apply andb_true_iff in Hall as [Hd Hall]. rewrite IH by exact Hall.
  destruct (Ascii.eqb_spec d c) as [->|]; [congruence | reflexivity].
Qed.

Lemma encodeURIComponent_char_safe (c : ascii) :
  Chars.all Chars.uri_safe (JS.encodeURIComponent_char c) = true.
Proof. destruct c as [[] [] [] [] [] [] [] []]; reflexivity. Qed.

Lemma form_urlencode_char_safe (c : ascii) :
  Chars.all Chars.form_safe (JS.form_urlencode_char c) = true.
Proof. destruct c as [[] [] [] [] [] [] [] []]; reflexivity. Qed.

Lemma encodeURIComponent_safe (s : string) :
  Chars.all Chars.uri_safe (JS.encodeURIComponent s) = true.
Proof.
  induction s as [|c s IH]; simpl; [reflexivity |].
  now rewrite all_append, encodeURIComponent_char_safe, IH.
Qed.

Lemma form_urlencode_safe (s : string) : Chars.all Chars.form_safe (JS.form_urlencode s) = true.
Proof.
  induction s as [|c s IH]; simpl; [reflexivity |].
  now rewrite all_append, form_urlencode_char_safe, IH.
Qed.

Lemma delimiter_not_uri_safe (c : ascii) : Chars.delimiter c = true -> Chars.uri_safe c = false.
Proof. destruct c as [[] [] [] [] [] [] [] []]; intros H; first [reflexivity | discriminate H]. Qed.

Lemma append_cancel (s x y : string) : s ++ x = s ++ y -> x = y.
Proof. induction s as [|c s IH]; simpl; intros E; [exact E | injection E as E; auto]. Qed.

(** X12. The ticker of [get_asset_details] and of [run_fundamentals] reaches
    the URL percent-encoded: whatever the ticker, the encoded text holds none
    of the characters [/ ? # & = +] and no space, so that a ticker cannot add
    a path segment, a query or a parameter to the request. *)
Theorem X12_ticker_cannot_change_the_url {rt : Runtime} (env : Env) (backend : Backend)
    (ticker : string) :
  exists encoded,
    (forall c, Chars.delimiter c = true -> Chars.count c encoded = 0)
    /\ requests backend
         (get_asset_details.handler env {| get_asset_details.ticker := ticker |})
       = [{| url := normalized_API_BASE env ++ "/asset/" ++ encoded; options := uncached |}]
    /\ requests backend
         (run_fundamentals.handler env {| run_fundamentals.ticker := ticker |})
       = [{| url := normalized_API_BASE env ++ "/analyze/fundamentals?ticker=" ++ encoded;
             options := uncached |}].
Proof.
  exists (JS.encodeURIComponent ticker). split.
  - intros c Hc. apply (count_none Chars.uri_safe).
    + apply encodeURIComponent_safe.
    + now apply delimiter_not_uri_safe.
  - split; run_handler; reflexivity.
Qed.

(** X13. Two invocations of [get_asset_details], or of [run_fundamentals],
    that issue the same request were given the same ticker: no two tickers
    share a URL. *)
Theorem X13_one_url_per_ticker {rt : Runtime} (env : Env) (backend : Backend)
    (ticker1 ticker2 : string) :
  (requests backend (get_asset_details.handler env {| get_asset_details.ticker := ticker1 |})
   = requests backend (get_asset_details.handler env {| get_asset_details.ticker := ticker2 |})
   -> ticker1 = ticker2)
  /\ (requests backend (run_fundamentals.handler env {| run_fundamentals.ticker := ticker1 |})
      = requests backend (run_fundamentals.handler env {| run_fundamentals.ticker := ticker2 |})
      -> ticker1 = ticker2).
Proof.
  split; run_handler; intros E; injection E as E;
    apply append_cancel in E; simpl in E; injection E as E;
    now apply encodeURIComponent_inj.
Qed.

(** X13, on a run: the tickers [BRK.B] and [BRK B] give two URLs. *)
Lemma X13_one_url_per_ticker_witness :
  requests Sample.empty_object
    (get_asset_details.handler (rt := Sample.runtime) Sample.env
       {| get_asset_details.ticker := "BRK.B" |})
  <> requests Sample.empty_object
       (get_asset_details.handler (rt := Sample.runtime) Sample.env
          {| get_asset_details.ticker := "BRK B" |}).
Proof.
  intros E.
  apply (proj1 (X13_one_url_per_ticker (rt := Sample.runtime) Sample.env Sample.empty_object
                  "BRK.B" "BRK B")) in E.
  discriminate E.
Defined.

Lemma count_join (c : ascii) (parts : list string) :
  (forall p, In p parts -> Chars.count c p = 0) ->
  Chars.count c (JS.join (String c "") parts) = length parts - 1.
Proof.
  induction parts as [|p [|q rest] IH]; intros Hparts; [reflexivity | |].
  - simpl. rewrite Hparts by now left. reflexivity.
  - change (JS.join (String c "") (p :: q :: rest))
      with (p ++ String c "" ++ JS.join (String c "") (q :: rest)).
    rewrite !count_append, IH, Hparts.
    + simpl. rewrite Ascii.eqb_refl. lia.
    + now left.
    + intros r Hr. apply Hparts. now right.
Qed.

(** X14. The query string of [ingest_from_finnhub] has one [&] between two
    entries and none elsewhere: cut at the [&], it gives as many pieces as
    there are cleaned tickers, whatever characters the tickers hold. *)
Theorem X14_ingest_query_separators {rt : Runtime} (env : Env)
    (a : ingest_from_finnhub.Args) (backend : Backend) :
  ingest_from_finnhub.cleaned a <> [] ->
  exists query,
    requests backend (ingest_from_finnhub.handler env a)
    = [{| url := normalized_API_BASE env ++ "/ingest/finnhub?" ++ query; options := uncached |}]
    /\ Chars.count "&" query = length (ingest_from_finnhub.cleaned a) - 1.
Proof.
  intros Hne. exists (ingest_from_finnhub.query_string (ingest_from_finnhub.cleaned a)). split.
  - unfold requests, ingest_from_finnhub.handler.
    destruct (ingest_from_finnhub.cleaned a) as [|t0 ts]; [now destruct Hne |].
    cbv beta iota zeta. now rewrite run_call.
  - unfold ingest_from_finnhub.query_string. rewrite count_join, length_map; [reflexivity |].
    intros p Hp. apply in_map_iff in Hp as (t & <- & _).
    rewrite count_append. simpl. apply (count_none Chars.uri_safe).
    + apply encodeURIComponent_safe.
    + reflexivity.
Qed.

(** X14, on a run: a ticker that holds an [&]. *)
Lemma X14_ingest_query_separators_witness :
  let a := {| ingest_from_finnhub.tickers := ["a&b"; "c"] |} in
  ingest_from_finnhub.cleaned a <> []
  /\ exists query,
       requests Sample.empty_object
         (ingest_from_finnhub.handler (rt := Sample.runtime) Sample.env a)
       = [{| url := normalized_API_BASE Sample.env ++ "/ingest/finnhub?" ++ query;
             options := uncached |}]
       /\ Chars.count "&" query = length (ingest_from_finnhub.cleaned a) - 1.
Proof.
  intros a. assert (ingest_from_finnhub.cleaned a <> []) as Hne by discriminate.
  split; [exact Hne |].
  exact (X14_ingest_query_separators (rt := Sample.runtime) Sample.env a Sample.empty_object Hne).
Defined.

(** X15. The query string of [search_assets] has two parameters whatever
    [q] holds: one [&] and two [=].  That of [list_universe] has one [=] more
    than it has [&], and no [&] when no sector is given. *)
Theorem X15_query_parameters_cannot_be_added (a : search_assets.Args)
    (b : list_universe.Args) :
  (Chars.count "&" (JS.URLSearchParams_toString (search_assets.query a)) = 1
   /\ Chars.count "=" (JS.URLSearchParams_toString (search_assets.query a)) = 2)
  /\ (Chars.count "=" (JS.URLSearchParams_toString (list_universe.query b))
      = S (Chars.count "&" (JS.URLSearchParams_toString (list_universe.query b)))
      /\ (list_universe.sector b = None ->
          Chars.count "&" (JS.URLSearchParams_toString (list_universe.query b)) = 0)).
Proof.
  assert (forall c s, Chars.form_safe c = false -> Chars.count c (JS.form_urlencode s) = 0)
    as Hsafe.
  { intros c s Hc. apply (count_none Chars.form_safe); [apply form_urlencode_safe | exact Hc]. }
  split.
  - unfold JS.URLSearchParams_toString, search_assets.query. simpl.
    rewrite !count_append. simpl. rewrite !Hsafe by reflexivity. split; reflexivity.
  - rewrite list_universe_query. unfold JS.URLSearchParams_toString.
    destruct (list_universe.sector b) as [s|]; [destruct (Spec.blank s) |]; simpl;
      rewrite ?count_append; simpl; rewrite ?Hsafe by reflexivity;
      (split; [reflexivity | first [discriminate | reflexivity]]).
Qed.

(** ** The endpoints *)

(** X16. The worker serves three paths and matches them exactly: every other
    path is answered with 404, and so is a served path with anything added
    to it, but for [/sse] followed by [/message]. *)
Theorem X16_endpoints_match_exactly (pathname suffix : string) :
  (Worker.fetch pathname <> Worker.Answer 404 "Not found"
   <-> pathname = "/sse" \/ pathname = "/sse/message" \/ pathname = "/mcp")
  /\ (suffix <> "" ->
      Worker.fetch ("/mcp" ++ suffix) = Worker.Answer 404 "Not found"
      /\ Worker.fetch ("/sse/message" ++ suffix) = Worker.Answer 404 "Not found"
      /\ (suffix <> "/message" ->
          Worker.fetch ("/sse" ++ suffix) = Worker.Answer 404 "Not found")).
Proof.
  split.
  - unfold Worker.fetch.
    destruct (String.eqb_spec pathname "/sse") as [->|H1]; simpl;
      [split; [intros _; auto | intros _; discriminate] |].
    destruct (String.eqb_spec pathname "/sse/message") as [->|H2]; simpl;
      [split; [intros _; auto | intros _; discriminate] |].
    destruct (String.eqb_spec pathname "/mcp") as [->|H3];
      [split; [intros _; auto | intros _; discriminate] |].
    split; [intros H; now destruct H | intros [?|[?|?]]; contradiction].
  - intros Hne. destruct suffix as [|c r]; [now destruct Hne |].
    split; [reflexivity |]. split; [reflexivity |].
    intros Hmsg. unfold Worker.fetch.
    destruct (String.eqb_spec ("/sse" ++ String c r) "/sse") as [E|_]; [discriminate E |].
    destruct (String.eqb_spec ("/sse" ++ String c r) "/sse/message") as [E|_].
    + change "/sse/message" with ("/sse" ++ "/message") in E.
      apply append_cancel in E. contradiction.
    + reflexivity.
Qed.

(** X16, on a run: a slash after [/mcp]. *)
Lemma X16_endpoints_match_exactly_witness :
  "/" <> ""
  /\ Worker.fetch "/mcp" = Worker.Serve
  /\ Worker.fetch "/mcp/" = Worker.Answer 404 "Not found".
Proof.
  assert ("/" <> "") as Hne by discriminate.
  split; [exact Hne |]. split; [reflexivity |].
  exact (proj1 (proj2 (X16_endpoints_match_exactly "/mcp" "/") Hne)).
Defined.

(** ** The earlier revisions *)

(** X17. [calculate] refuses a division by zero: when [b === 0], which holds
    for [-0] as well, it returns [Error: Cannot divide by zero] instead of
    the quotient, whatever [a] is, and issues no request. *)
Theorem X17_division_by_zero {nr : NumberRuntime} (a b : float) (backend : Backend) :
  PrimFloat.eqb b 0 = true ->
  run backend
    (Revision.calculate.handler
       {| Revision.calculate.operation := Revision.calculate.divide;
          Revision.calculate.a := a; Revision.calculate.b := b |})
  = ([], Returned (text_reply "Error: Cannot divide by zero")).
Proof. intros Hzero. unfold Revision.calculate.handler. simpl. now rewrite Hzero. Qed.

(** X17, on a run: one divided by minus zero. *)
Lemma X17_division_by_zero_witness :
  PrimFloat.eqb (-0)%float 0 = true
  /\ run Sample.empty_object
       (Revision.calculate.handler (nr := SampleNumbers.runtime)
          {| Revision.calculate.operation := Revision.calculate.divide;
             Revision.calculate.a := 1%float; Revision.calculate.b := (-0)%float |})
     = ([], Returned (text_reply "Error: Cannot divide by zero")).
Proof.
  assert (PrimFloat.eqb (-0)%float 0 = true) as Hzero by reflexivity.
  split; [exact Hzero |].
  exact (X17_division_by_zero (nr := SampleNumbers.runtime)
           1%float (-0)%float Sample.empty_object Hzero).
Defined.

(** X18. [calculate] issues no request and does not throw; but for the
    division by zero, its text is the printed result of the operation, and
    for [add] it is the reply of the tool [add] on the same numbers. *)
Theorem X18_calculate_result {nr : NumberRuntime} (op : Revision.calculate.Operation)
    (a b : float) (backend : Backend) :
  let args := {| Revision.calculate.operation := op;
                 Revision.calculate.a := a; Revision.calculate.b := b |} in
  (exists s, run backend (Revision.calculate.handler args) = ([], Returned (text_reply s)))
  /\ (op = Revision.calculate.add ->
      run backend (Revision.calculate.handler args)
      = run backend (Revision.add.handler {| Revision.add.a := a; Revision.add.b := b |}))
  /\ (op = Revision.calculate.divide -> PrimFloat.eqb b 0 = false ->
      run backend (Revision.calculate.handler args)
      = ([], Returned (text_reply (String_of_number (a / b)%float)))).
Proof.
  intros args. subst args. unfold Revision.calculate.handler, Revision.add.handler.
  split; [|split].
  - destruct op; simpl; try (eexists; reflexivity).
    destruct (PrimFloat.eqb b 0); eexists; reflexivity.
  - now intros ->.
  - intros -> Hb. simpl. now rewrite Hb.
Qed.

(** X18, on a run: six divided by three. *)
Lemma X18_calculate_result_witness :
  let nr := SampleNumbers.runtime in
  PrimFloat.eqb 3%float 0 = false
  /\ run Sample.empty_object
       (Revision.calculate.handler (nr := nr)
          {| Revision.calculate.operation := Revision.calculate.divide;
             Revision.calculate.a := 6%float; Revision.calculate.b := 3%float |})
     = ([], Returned (text_reply (String_of_number (NumberRuntime := nr) (6 / 3)%float))).
Proof.
  intros nr. assert (PrimFloat.eqb 3%float 0 = false) as Hb by reflexivity.
  split; [exact Hb |].
  exact (proj2 (proj2 (X18_calculate_result (nr := nr) Revision.calculate.divide
                         6%float 3%float Sample.empty_object)) eq_refl Hb).
Defined.

Lemma Number_toString_inj (n m : Z) : JS.Number_toString n = JS.Number_toString m -> n = m.
Proof.
  unfold JS.Number_toString. intros E. apply to_int_inj.
  assert (forall z, NilZero.int_of_string (NilZero.string_of_int (Z.to_int z))
                    = Some (Z.to_int z)) as Hisi.
  { intros z. apply NilZero.isi; destruct z; simpl; try discriminate;
      intros H; injection H as H; now apply Unsigned.to_uint_nonnil in H. }
  apply (f_equal NilZero.int_of_string) in E. rewrite !Hisi in E. now injection E.
Qed.

(** X19. [list_universe] of the first revision marks its URL with the clock:
    two invocations at different times issue different requests (to
    [/advice] of the base address), so that no cache can answer the second
    with the response of the first. *)
Theorem X19_advice_url_changes_with_time {rt : Runtime} (API_BASE : string) (now1 now2 : Z)
    (a1 a2 : Revision.list_advice.Args) (backend : Backend) :
  now1 <> now2 ->
  requests backend (Revision.list_advice.handler API_BASE now1 a1)
  <> requests backend (Revision.list_advice.handler API_BASE now2 a2)
  /\ exists stamp,
       requests backend (Revision.list_advice.handler API_BASE now1 a1)
       = [{| url := API_BASE ++ "/advice?t=" ++ stamp; options := uncached |}].
Proof.
  intros Hne. unfold requests, Revision.list_advice.handler.
  rewrite !run_call by reflexivity. split; [|eexists; reflexivity].
  intros E. injection E as E. apply append_cancel in E. simpl in E. injection E as E.
  now apply Number_toString_inj in E.
Qed.

(** X19, on a run: two readings of the clock one millisecond apart. *)
Lemma X19_advice_url_changes_with_time_witness :
  (1700000000000 <> 1700000000001)%Z
  /\ requests Sample.empty_object
       (Revision.list_advice.handler (rt := Sample.runtime) "https://api" 1700000000000 [])
     <> requests Sample.empty_object
          (Revision.list_advice.handler (rt := Sample.runtime) "https://api" 1700000000001 []).
Proof.
  assert (1700000000000 <> 1700000000001)%Z as Hne by discriminate.
  split; [exact Hne |].
  exact (proj1 (X19_advice_url_changes_with_time (rt := Sample.runtime) "https://api"
                  1700000000000 1700000000001 [] [] Sample.empty_object Hne)).
Defined.

(** X20. In each of the three revisions a session registers every name
    once, and registers [config_error] exactly when the normalized base
    address is empty; it is then the only tool. *)
Theorem X20_registration {rt : Runtime} {nr : NumberRuntime} (env : Env) (now : Z) :
  let sessions := [init env; Revision.init_second env; Revision.init_first env now] in
  forall tools, In tools sessions ->
    NoDup (map name tools)
    /\ (In "config_error" (map name tools) <-> normalized_API_BASE env = "")
    /\ (normalized_API_BASE env = "" -> map name tools = ["config_error"]).
Proof.
  intros sessions tools Htools. unfold sessions in Htools. simpl in Htools.
  unfold init, Revision.init_second, Revision.init_first, JS.truthy in Htools.
  destruct (normalized_API_BASE env) as [|c s]; simpl in Htools;
    destruct Htools as [<-|[<-|[<-|[]]]]; simpl;
    (split; [repeat constructor; simpl; intuition discriminate |]);
    (split; [split; intros H; try reflexivity; try discriminate; intuition discriminate |]);
    intros H; try reflexivity; discriminate.
Qed.

(** X20, on a run: the second revision of the sample session. *)
Lemma X20_registration_witness :
  let nr := SampleNumbers.runtime in
  let tools := Revision.init_second (rt := Sample.runtime) (nr := nr) Sample.env in
  map name tools = ["add"; "calculate"; "list_universe"; "explain_universe"; "get_asset_details"]
  /\ NoDup (map name tools)
  /\ (In "config_error" (map name tools) <-> normalized_API_BASE Sample.env = "")
  /\ (normalized_API_BASE Sample.env = "" -> map name tools = ["config_error"]).
Proof.
  intros nr tools. split; [reflexivity |].
  apply (X20_registration (rt := Sample.runtime) (nr := nr) Sample.env 0 tools).
  simpl. tauto.
Defined.

(** ** Failed calls, again *)

(** X21. The diagnostics of [list_universe], [explain_universe],
    [get_asset_details] and [search_assets] do not show the body of a failed
    response: two failures with the same status get the same reply,
    whatever their bodies. *)
Theorem X21_failure_hides_the_body {rt : Runtime} (env : Env) (t : ToolDefinition)
    (a : Args t) (backend1 backend2 : Backend) (rq : BackendRequest)
    (res1 res2 : BackendResponse) :
  In t (init env) ->
  Spec.with_body_excerpt (name t) = false ->
  In rq (requests backend1 (handler t a)) ->
  backend1 rq = Responded res1 ->
  backend2 rq = Responded res2 ->
  ok res1 = false ->
  status res2 = status res1 ->
  completion backend1 (handler t a) = completion backend2 (handler t a).
Proof.
  intros Ht Hname Hrq Hb1 Hb2 Hok1 Hstatus.
  assert (ok res2 = false) as Hok2 by (unfold ok in *; now rewrite Hstatus).
  open_tool Ht a; try discriminate; try contradiction;
    destruct Hrq as [<-|[]]; now rewrite Hb1, Hb2, Hok1, Hok2, Hstatus.
Qed.

(** X21, on a run: two 500 of [/search] with different bodies. *)
Lemma X21_failure_hides_the_body_witness :
  let t := search_assets.tool (rt := Sample.runtime) Sample.env in
  let a : Args t := {| search_assets.q := "app"; search_assets.limit := 10 |} in
  completion (Sample.failing 500 "stack trace") (handler t a)
  = completion (Sample.failing 500 "") (handler t a).
Proof.
  intros t a.
  assert (In t (init (rt := Sample.runtime) Sample.env)) as Ht by (simpl; tauto).
  apply (X21_failure_hides_the_body Sample.env t a
           (Sample.failing 500 "stack trace") (Sample.failing 500 "")
           {| url := "https://api-advisor.onrender.com/search?q=app&limit=10";
              options := uncached |}
           {| status := 500; body_text := Some "stack trace"; body_json := None |}
           {| status := 500; body_text := Some ""; body_json := None |} Ht);
    solve [reflexivity | left; reflexivity].
Defined.

(** X22. When the body of a failed response cannot be read,
    [ingest_from_finnhub] and [run_fundamentals] still return their
    diagnostic, with an empty excerpt: the rejection of [res.text()] is
    caught. *)
Theorem X22_unreadable_body {rt : Runtime} (env : Env) (t : ToolDefinition)
    (a : Args t) (backend : Backend) (rq : BackendRequest) (res : BackendResponse) :
  In t (init env) ->
  Spec.with_body_excerpt (name t) = true ->
  In rq (requests backend (handler t a)) ->
  backend rq = Responded res ->
  ok res = false ->
  body_text res = None ->
  completion backend (handler t a)
  = Returned (text_reply ("Backend " ++ Spec.backend_path (name t) ++ " "
                            ++ JS.Number_toString (status res) ++ ": ")).
Proof.
  intros Ht Hname Hrq Hb Hok Htext.
  open_tool Ht a; try discriminate; try contradiction;
    destruct Hrq as [<-|[]]; rewrite Hb, Hok; unfold text_or_empty; now rewrite Htext.
Qed.

(** X22, on a run. *)
Lemma X22_unreadable_body_witness :
  let t := run_fundamentals.tool (rt := Sample.runtime) Sample.env in
  let a : Args t := {| run_fundamentals.ticker := "AAPL" |} in
  let res := {| status := 502; body_text := None; body_json := None |} in
  let backend : Backend := fun _ => Responded res in
  completion backend (handler t a)
  = Returned (text_reply "Backend /analyze/fundamentals 502: ").
Proof.
  intros t a res backend.
  assert (In t (init (rt := Sample.runtime) Sample.env)) as Ht by (simpl; tauto).
  apply (X22_unreadable_body Sample.env t a backend
           {| url := "https://api-advisor.onrender.com/analyze/fundamentals?ticker=AAPL";
              options := uncached |} res Ht);
    solve [reflexivity | left; reflexivity].
Defined.

(** ** Slashes at the end of the base address *)

Lemma drop_suffix_slashes (s : string) (n : nat) :
  JS.drop_suffix JS.is_slash (s ++ Chars.slashes n) = JS.drop_suffix JS.is_slash s.
Proof.
  induction s as [|c s IH]; simpl.
  - induction n as [|n IHn]; simpl; [reflexivity | now rewrite IHn].
  - now rewrite IH.
Qed.

(** X23. Slashes at the end of the configured base address are immaterial:
    the session configured with them registers the same tools, with the same
    handlers, as the session configured without. *)
Theorem X23_trailing_slashes_are_immaterial {rt : Runtime} (base : string) (n : nat) :
  init {| API_BASE := Some (base ++ Chars.slashes n) |} = init {| API_BASE := Some base |}.
Proof.
  assert (normalized_API_BASE {| API_BASE := Some (base ++ Chars.slashes n) |}
          = normalized_API_BASE {| API_BASE := Some base |}) as Hbase
    by apply drop_suffix_slashes.
  unfold init, list_universe.tool, get_asset_details.tool, search_assets.tool,
    ingest_from_finnhub.tool, run_fundamentals.tool,
    list_universe.handler, get_asset_details.handler, search_assets.handler,
    ingest_from_finnhub.handler, run_fundamentals.handler.
  now rewrite Hbase.
Qed.
